(** * Event-ticket canister: inventory store and transaction ledger

    A shallow embedding of [src/index.ts].  The canister creates two map
    handles, [eventTicketStorage] and [ticketSoldStorage], and exposes query
    and update functions over them.  Every function below is a
    transcription of the function of the same name in the source. *)

From stdpp Require Import gmap strings list fin_maps.
From Stdlib Require Import ZArith.

Local Open Scope Z_scope.

(** ** Values *)

(** [number]: [price] is only copied; [totalTicketSold] is set to 0 and
    compared with [capacity], and no arithmetic on it is transcribed below.
    Numbers are modelled as integers.  [nat64] is the type of [ic.time()];
    a time is only stored. *)
Abbreviation number := Z (only parsing).
Abbreviation nat64 := N (only parsing).

(** [Result<T, E>] of the host library, with [Result.Ok] and [Result.Err]. *)
Inductive Result (T E : Type) : Type :=
| Ok (value : T)
| Err (error : E).
Arguments Ok {T E} value.
Arguments Err {T E} error.

(** ** Exceptions *)

(** A JavaScript call either returns a value or throws.  The only
    exception this program raises is the TypeError of calling something that
    is not a function; it carries the name of the property called. *)
Inductive Exception : Type :=
| TypeError (notAFunction : string).

Inductive Outcome (A : Type) : Type :=
| Returns (value : A)
| Throws (exception : Exception).
Arguments Returns {A} value.
Arguments Throws {A} exception.

#[global] Instance Outcome_ret : MRet Outcome := λ A, @Returns A.

#[global] Instance Outcome_bind : MBind Outcome := λ A B k o,
  match o with
  | Returns a => k a
  | Throws e => Throws e
  end.

(** The exception of an outcome, if it is one. *)
Definition thrown {A} (o : Outcome A) : option Exception :=
  match o with
  | Returns _ => None
  | Throws e => Some e
  end.

(** [r.isErr()] and [r.unwrap()] for a value [r] that [Result.Ok] or
    [Result.Err] built.  Such a value is the plain object [{Ok: v}] or
    [{Err: e}]: it has one own property, which holds data, and no method.
    Reading [isErr] or [unwrap] from it gives [undefined], and calling that
    throws a TypeError, whatever the object holds. *)
Definition callMethod {T E A} (method : string) (r : Result T E) : Outcome A :=
  Throws (TypeError method).

(** ** Records *)

Module EventTicket.
(** The seven declared fields of [type EventTicket], followed by the two
    properties that the code reads or writes on ticket objects without
    declaring them: [capacity] (read by [checkTicketAvailability]) and
    [reservedBy] (read and written by [reserveTicket]).  [None] stands for
    a property that is not present on the object ([undefined]). *)
Record t : Type := mk {
  id : string;
  title : string;
  description : string;
  price : number;
  totalTicketSold : number;
  createdAt : nat64;
  updatedAt : option nat64;
  capacity : option number;
  reservedBy : option string;
}.
End EventTicket.

Module TicketSold.
Record t : Type := mk {
  id : string;
  eventTicketId : string;
  username : string;
}.
End TicketSold.

Module EventTicketPayload.
Record t : Type := mk {
  title : string;
  description : string;
  price : number;
}.
End EventTicketPayload.

(** ** JavaScript operators used by the code *)

(** Truthiness of [ticket.reservedBy]: [undefined] and the empty string are
    falsy, every other string is truthy. *)
Definition truthy (v : option string) : bool :=
  match v with
  | None => false
  | Some s => negb (String.eqb s "")
  end.

(** [v !== s] for a possibly undefined [v] and a string [s]. *)
Definition strict_ne (v : option string) (s : string) : bool :=
  match v with
  | None => true
  | Some s' => negb (String.eqb s' s)
  end.

(** [a < b] for a number [a] and a possibly undefined [b]: [undefined]
    converts to NaN and every comparison with NaN is false. *)
Definition less_than (a : number) (b : option number) : bool :=
  match b with
  | None => false
  | Some c => a <? c
  end.

(** ** The stable map *)

(** The source creates two handles, [eventTicketStorage] and
    [ticketSoldStorage], both by [new StableBTreeMap(0, 44, 1024)]: both are
    on the stable memory of id 0 and so are handles on one and the same map.
    [Storage] holds that map, a finite map from keys to the stored objects:
    [get] returns what [insert] last stored under the key, through either
    handle.  The objects in it are event tickets, since the only [insert]
    that is ever reached is that of [createEventTicket] (see the update
    functions below).  The size bounds 44 and 1024 belong to the host
    library and are not modelled. *)
Record Storage : Type := mkStorage {
  eventTicketStorage : gmap string EventTicket.t;
}.

Definition emptyStorage : Storage := mkStorage ∅.

Definition withEventTickets (m : gmap string EventTicket.t) (st : Storage) : Storage :=
  mkStorage m.

(** The second handle on the map of memory 0. *)
Definition ticketSoldStorage (st : Storage) : gmap string EventTicket.t :=
  eventTicketStorage st.

(** ** Queries *)

(** [getAllEventTickets] answers [values()] of the map.  The order in which
    the host map lists its values is its own; the list below is in the
    order of the finite map, and nothing stated about it depends on the
    order. *)
Definition getAllEventTickets (st : Storage)
  : Result (list EventTicket.t) string :=
  Ok (map_to_list (eventTicketStorage st)).*2.


Definition getEventTicketById (id : string) (st : Storage)
  : Result EventTicket.t string :=
  match eventTicketStorage st !! id with
  | Some ticket => Ok ticket
  | None => Err ("event ticket with id=" +:+ id +:+ " not found")
  end.

(** [getTicketSoldById] is declared with [Result<TicketSold, string>]; what
    it answers is the object stored under the key, as stored. *)
Definition getTicketSoldById (id : string) (st : Storage)
  : Result EventTicket.t string :=
  match ticketSoldStorage st !! id with
  | Some ticket => Ok ticket
  | None => Err ("ticket sold with id=" +:+ id +:+ " not found")
  end.

(** index.ts 148-161, in full. *)
Definition checkTicketAvailability (id : string) (st : Storage)
  : Outcome (Result bool string) :=
  let eventTicket := getEventTicketById id st in
  isErr ← callMethod "isErr" eventTicket;
  if (isErr : bool)
  then mret (Err ("Event ticket with id=" +:+ id +:+ " not found."))
  else
    ticket ← callMethod "unwrap" eventTicket;
    let availableTickets :=
      less_than (EventTicket.totalTicketSold ticket)
        (EventTicket.capacity ticket) in
    mret (Ok availableTickets).

(** ** Updates

    [createEventTicket] and [deleteEventTicket] never throw: they return
    their result together with the storage they leave.  The values that
    [uuidv4()] and [ic.time()] return during the call are arguments ([uuid],
    [now]). *)

Definition createEventTicket (payload : EventTicketPayload.t)
    (uuid : string) (now : nat64) (st : Storage)
  : Result EventTicket.t string * Storage :=
  let newTicket :=
    EventTicket.mk uuid
      (EventTicketPayload.title payload)
      (EventTicketPayload.description payload)
      (EventTicketPayload.price payload)
      0 now None None None in
  (Ok newTicket,
   withEventTickets
     (<[EventTicket.id newTicket := newTicket]> (eventTicketStorage st)) st).

Definition deleteEventTicket (id : string) (st : Storage)
  : Result EventTicket.t string * Storage :=
  match eventTicketStorage st !! id with
  | Some ticket =>
      (Ok ticket, withEventTickets (delete id (eventTicketStorage st)) st)
  | None =>
      (Err ("couldn't delete ticket with id=" +:+ id +:+ ". Profile not found."),
       withEventTickets (delete id (eventTicketStorage st)) st)
  end.

(** The other five updates call [isErr] on the result of their lookup
    before anything else; they return an outcome: the result together with
    the storage they leave, or the exception.

    [buyTicket], [resellTicket] and [transferTicket] are transcribed up to
    their call of [unwrap] (index.ts 95-103, 129-138, 191-200).  What comes
    after in the source (index.ts 105-121, 139-144, 201-206) builds a sold
    record and files it; it is not reached, and by [callMethod_bind] below
    no continuation changes the outcome. *)

Definition buyTicket (id username : string) (st : Storage)
  : Outcome (Result TicketSold.t string * Storage) :=
  let eventTicket := getEventTicketById id st in
  isErr ← callMethod "isErr" eventTicket;
  if (isErr : bool)
  then mret (Err ("Event ticket with id=" +:+ id +:+ " not found."), st)
  else callMethod "unwrap" eventTicket.

Definition resellTicket (id username : string) (st : Storage)
  : Outcome (Result TicketSold.t string * Storage) :=
  let ticket := getTicketSoldById id st in
  isErr ← callMethod "isErr" ticket;
  if (isErr : bool)
  then mret (Err ("ticket sold with id=" +:+ id +:+ " not found."), st)
  else callMethod "unwrap" ticket.

(** index.ts 164-187, in full. *)
Definition reserveTicket (id username : string) (st : Storage)
  : Outcome (Result string string * Storage) :=
  let eventTicket := getEventTicketById id st in
  isErr ← callMethod "isErr" eventTicket;
  if (isErr : bool)
  then mret (Err ("Event ticket with id=" +:+ id +:+ " not found."), st)
  else
    ticket ← callMethod "unwrap" eventTicket;
    if truthy (EventTicket.reservedBy ticket)
       && strict_ne (EventTicket.reservedBy ticket) username
    then mret (Err "Ticket is already reserved by another user.", st)
    else
      let updatedTicket :=
        EventTicket.mk
          (EventTicket.id ticket)
          (EventTicket.title ticket)
          (EventTicket.description ticket)
          (EventTicket.price ticket)
          (EventTicket.totalTicketSold ticket)
          (EventTicket.createdAt ticket)
          (EventTicket.updatedAt ticket)
          (EventTicket.capacity ticket)
          (Some username) in
      mret (Ok (EventTicket.id updatedTicket),
            withEventTickets
              (<[EventTicket.id updatedTicket := updatedTicket]>
                 (eventTicketStorage st)) st).

Definition transferTicket (id newOwner : string) (st : Storage)
  : Outcome (Result string string * Storage) :=
  let ticket := getTicketSoldById id st in
  isErr ← callMethod "isErr" ticket;
  if (isErr : bool)
  then mret (Err ("Ticket sold with id=" +:+ id +:+ " not found."), st)
  else callMethod "unwrap" ticket.

(** index.ts 210-222, in full. *)
Definition requestTicketRefund (id : string) (st : Storage)
  : Outcome (Result string string * Storage) :=
  let ticket := getTicketSoldById id st in
  isErr ← callMethod "isErr" ticket;
  if (isErr : bool)
  then mret (Err ("Ticket sold with id=" +:+ id +:+ " not found."), st)
  else
    mret (Ok id, withEventTickets (delete id (ticketSoldStorage st)) st).

(** ** Calls and the storages they reach *)

Inductive Call : Type :=
| CreateEventTicket (payload : EventTicketPayload.t) (uuid : string) (now : nat64)
| DeleteEventTicket (id : string)
| BuyTicket (id username : string)
| ResellTicket (id username : string)
| ReserveTicket (id username : string)
| TransferTicket (id newOwner : string)
| RequestTicketRefund (id : string).

(** The storage after an outcome: a call that throws writes nothing. *)
Definition storageAfter {A} (st : Storage) (o : Outcome (A * Storage))
  : Storage :=
  match o with
  | Returns (_, st') => st'
  | Throws _ => st
  end.

(** The storage a call leaves. *)
Definition perform (c : Call) (st : Storage) : Storage :=
  match c with
  | CreateEventTicket payload uuid now => (createEventTicket payload uuid now st).2
  | DeleteEventTicket id => (deleteEventTicket id st).2
  | BuyTicket id username => storageAfter st (buyTicket id username st)
  | ResellTicket id username => storageAfter st (resellTicket id username st)
  | ReserveTicket id username => storageAfter st (reserveTicket id username st)
  | TransferTicket id newOwner => storageAfter st (transferTicket id newOwner st)
  | RequestTicketRefund id => storageAfter st (requestTicketRefund id st)
  end.

(** Whether the call answers [Result.Ok]; it does not when it answers
    [Result.Err] or throws. *)
Definition answersOk (c : Call) (st : Storage) : bool :=
  let ok {A} (o : Outcome (Result A string * Storage)) : bool :=
    match o with
    | Returns (Ok _, _) => true
    | _ => false
    end in
  match c with
  | CreateEventTicket payload uuid now =>
      ok (Returns (createEventTicket payload uuid now st))
  | DeleteEventTicket id => ok (Returns (deleteEventTicket id st))
  | BuyTicket id username => ok (buyTicket id username st)
  | ResellTicket id username => ok (resellTicket id username st)
  | ReserveTicket id username => ok (reserveTicket id username st)
  | TransferTicket id newOwner => ok (transferTicket id newOwner st)
  | RequestTicketRefund id => ok (requestTicketRefund id st)
  end.

(** The key that the call is about to write, if it reaches a write. *)
Definition keyWritten (c : Call) : option string :=
  match c with
  | CreateEventTicket _ uuid _ => Some uuid
  | DeleteEventTicket id => Some id
  | BuyTicket _ _ | ResellTicket _ _ | ReserveTicket _ _
  | TransferTicket _ _ | RequestTicketRefund _ => None
  end.

(** The storages the canister can be in: it starts empty and changes only
    through calls. *)
Inductive reachable : Storage → Prop :=
| reachable_init : reachable emptyStorage
| reachable_call c st : reachable st → reachable (perform c st).

(** ** Sold-count bookkeeping *)

(** The property [eventTicketId] of a stored object.  The stored objects are
    those that [createEventTicket] built, and they have no such property. *)
Definition eventTicketIdOf (stored : EventTicket.t) : option string := None.

(** The entry, read through the ledger handle, refers to the event ticket
    of the given id. *)
Definition refersTo (eventTicketId : string) (kv : string * EventTicket.t)
  : Prop :=
  eventTicketIdOf kv.2 = Some eventTicketId.

#[global] Instance refersTo_dec eventTicketId kv :
  Decision (refersTo eventTicketId kv) :=
  decide (eventTicketIdOf kv.2 = Some eventTicketId).



(** An event ticket as [createEventTicket] files it: under its own id,
    with nothing sold, never updated, without capacity or reservation. *)
Definition pristine (st : Storage) : Prop :=
  ∀ k t, eventTicketStorage st !! k = Some t →
         EventTicket.id t = k ∧
         EventTicket.totalTicketSold t = 0 ∧
         EventTicket.updatedAt t = None ∧
         EventTicket.capacity t = None ∧
         EventTicket.reservedBy t = None.

(** ** Sample values *)

Module Sample.
Definition payload : EventTicketPayload.t :=
  EventTicketPayload.mk "Gig" "A concert" 10.

(** One event ticket created at time 5. *)
Definition created : Storage :=
  (createEventTicket payload "e1" 5%N emptyStorage).2.

(** The event ticket of [created]. *)
Definition gig : EventTicket.t :=
  EventTicket.mk "e1" "Gig" "A concert" 10 0 5%N None None None.


End Sample.

(** * Properties *)

(** ** Lookups *)

Section Lookups.
Context (st : Storage) (id : string).

Lemma getEventTicketById_found ticket :
  eventTicketStorage st !! id = Some ticket →
  getEventTicketById id st = Ok ticket.
Proof. unfold getEventTicketById. by intros ->. Qed.

Lemma getEventTicketById_missing :
  eventTicketStorage st !! id = None →
  getEventTicketById id st = Err ("event ticket with id=" +:+ id +:+ " not found").
Proof. unfold getEventTicketById. by intros ->. Qed.


Lemma getTicketSoldById_missing :
  ticketSoldStorage st !! id = None →
  getTicketSoldById id st = Err ("ticket sold with id=" +:+ id +:+ " not found").
Proof. unfold getTicketSoldById. by intros ->. Qed.
End Lookups.

Lemma storage_eta st : mkStorage (eventTicketStorage st) = st.
Proof. by destruct st. Qed.

(** ** createEventTicket *)

(** C8. [createEventTicket] always answers [Ok] with a new event ticket: its
    [id] is the identifier generated for the call, [totalTicketSold] is 0,
    [createdAt] is the time of the call, [updatedAt] and [reservedBy] are
    absent; title, description and price are the payload's. *)
Theorem createEventTicket_new_ticket payload uuid now st :
  ∃ ticket,
    (createEventTicket payload uuid now st).1 = Ok ticket ∧
    EventTicket.id ticket = uuid ∧
    EventTicket.totalTicketSold ticket = 0 ∧
    EventTicket.createdAt ticket = now ∧
    EventTicket.updatedAt ticket = None ∧
    EventTicket.reservedBy ticket = None ∧
    EventTicket.title ticket = EventTicketPayload.title payload ∧
    EventTicket.description ticket = EventTicketPayload.description payload ∧
    EventTicket.price ticket = EventTicketPayload.price payload.
Proof. eexists. split; [reflexivity|]. cbn. tauto. Qed.

(** C9. Reading back, with [getEventTicketById], the id of the entity that
    [createEventTicket] just returned gives that very entity. *)
Theorem create_then_get payload uuid now st :
  ∃ ticket,
    (createEventTicket payload uuid now st).1 = Ok ticket ∧
    getEventTicketById (EventTicket.id ticket)
      (createEventTicket payload uuid now st).2 = Ok ticket.
Proof.
  eexists. split; [reflexivity|].
  apply getEventTicketById_found. cbn. apply lookup_insert_eq.
Qed.

(** ** Method calls on results *)

(** Nothing that follows a method call on a result is reached: whatever the
    continuation, the outcome is the exception of the call. *)
Lemma callMethod_bind {T E A B} (method : string) (r : Result T E)
    (k : A → Outcome B) :
  callMethod method r ≫= k = callMethod method r.
Proof. reflexivity. Qed.

(** A call that names no key to write, which is every call other than
    [createEventTicket] and [deleteEventTicket], leaves the storage as it
    was. *)
Lemma perform_throwing c st : keyWritten c = None → perform c st = st.
Proof. by destruct c. Qed.

(** ** The functions that call [isErr] *)


(** C2. [checkTicketAvailability] never answers: for every id and storage,
    whether the id is stored or not, its call of [isErr] (index.ts 151)
    throws a TypeError; it answers neither a boolean nor a not-found
    error. *)
Theorem checkTicketAvailability_throws id st :
  checkTicketAvailability id st = Throws (TypeError "isErr") ∧
  (∀ answer, checkTicketAvailability id st ≠ Returns answer).
Proof. done. Qed.

(** C4. [requestTicketRefund] never answers: for every id and storage its
    call of [isErr] (index.ts 213) throws a TypeError before [remove] is
    reached; what [getTicketSoldById] answers for the id is what it
    answered before. *)
Theorem requestTicketRefund_throws id st :
  requestTicketRefund id st = Throws (TypeError "isErr") ∧
  perform (RequestTicketRefund id) st = st ∧
  getTicketSoldById id (perform (RequestTicketRefund id) st)
  = getTicketSoldById id st.
Proof. done. Qed.


(** C6. [resellTicket] and [transferTicket] never answer: for every id, new
    holder and storage their call of [isErr] (index.ts 131, 193) throws a
    TypeError, for a stored id as for a missing one, and the storage is
    left as it was. *)
Theorem change_owner_throws id newHolder st :
  resellTicket id newHolder st = Throws (TypeError "isErr") ∧
  transferTicket id newHolder st = Throws (TypeError "isErr") ∧
  perform (ResellTicket id newHolder) st = st ∧
  perform (TransferTicket id newHolder) st = st.
Proof. done. Qed.

(** C7. On every input [transferTicket] and [resellTicket] leave the same
    storage and have the same outcome, which is the TypeError of the call
    of [isErr]: neither succeeds with a sold record and neither answers a
    not-found error. *)
Theorem transfer_and_resell_both_throw id newHolder st :
  thrown (transferTicket id newHolder st)
  = thrown (resellTicket id newHolder st) ∧
  thrown (resellTicket id newHolder st) = Some (TypeError "isErr") ∧
  perform (TransferTicket id newHolder) st
  = perform (ResellTicket id newHolder) st.
Proof. done. Qed.


(** ** What the canister's storages look like *)

Lemma pristine_empty : pristine emptyStorage.
Proof. intros k t. cbn. by rewrite lookup_empty. Qed.

Lemma perform_pristine c st : pristine st → pristine (perform c st).
Proof.
  intros Hst.
  destruct (keyWritten c) eqn:Hkey;
    [|by rewrite perform_throwing].
  destruct c as [payload uuid now|id| | | | |]; try discriminate;
    cbn [perform]; intros k t.
  - cbn. rewrite lookup_insert_Some. intros [[<- <-]|[_ Hk]]; [done|].
    by apply Hst.
  - unfold deleteEventTicket.
    destruct (eventTicketStorage st !! id); cbn;
      rewrite lookup_delete_Some; intros [_ Hk]; by apply Hst.
Qed.

Lemma reachable_pristine st : reachable st → pristine st.
Proof.
  induction 1 as [|c st _ IH]; [apply pristine_empty|].
  by apply perform_pristine.
Qed.


Lemma reachable_created : reachable Sample.created.
Proof.
  apply (reachable_call (CreateEventTicket Sample.payload "e1" 5%N)
           emptyStorage reachable_init).
Qed.



Lemma created_gig : eventTicketStorage Sample.created !! "e1" = Some Sample.gig.
Proof. vm_compute. reflexivity. Qed.



(** X13. On every storage the canister reaches from the empty one, every
    stored event ticket is as [createEventTicket] made it: filed under its
    own id, with [totalTicketSold] 0, no [updatedAt], no capacity and no
    reservation.  No call ever sells, updates or reserves one. *)
Theorem reachable_event_tickets_pristine st :
  reachable st →
  ∀ k t, eventTicketStorage st !! k = Some t →
         EventTicket.id t = k ∧
         EventTicket.totalTicketSold t = 0 ∧
         EventTicket.updatedAt t = None ∧
         EventTicket.capacity t = None ∧
         EventTicket.reservedBy t = None.
Proof. apply reachable_pristine. Qed.

Lemma reachable_event_tickets_pristine_witness :
  EventTicket.id Sample.gig = "e1" ∧
  EventTicket.totalTicketSold Sample.gig = 0 ∧
  EventTicket.updatedAt Sample.gig = None ∧
  EventTicket.capacity Sample.gig = None ∧
  EventTicket.reservedBy Sample.gig = None.
Proof.
  apply (reachable_event_tickets_pristine Sample.created reachable_created
           "e1" Sample.gig).
  vm_compute. reflexivity.
Defined.

(** ** deleteEventTicket *)

(** X1. [deleteEventTicket] on an id that is not stored answers its error
    and leaves the storage as it was.  On a stored id it answers the stored
    event ticket and removes it: [getEventTicketById] then fails, and so
    does [getTicketSoldById], which reads the same map; the objects under
    other keys stay. *)
Theorem deleteEventTicket_spec st id :
  (eventTicketStorage st !! id = None →
   deleteEventTicket id st
   = (Err ("couldn't delete ticket with id=" +:+ id +:+ ". Profile not found."),
      st)) ∧
  (∀ ticket,
     eventTicketStorage st !! id = Some ticket →
     (deleteEventTicket id st).1 = Ok ticket ∧
     getEventTicketById id (deleteEventTicket id st).2
     = Err ("event ticket with id=" +:+ id +:+ " not found") ∧
     getTicketSoldById id (deleteEventTicket id st).2
     = Err ("ticket sold with id=" +:+ id +:+ " not found") ∧
     (∀ k, k ≠ id →
           getEventTicketById k (deleteEventTicket id st).2
           = getEventTicketById k st)).
Proof.
  split.
  - intros Hid. unfold deleteEventTicket. rewrite Hid. f_equal.
    unfold withEventTickets. rewrite delete_id by done. apply storage_eta.
  - intros ticket Hid. unfold deleteEventTicket. rewrite Hid. cbn [fst snd].
    split; [reflexivity|]. split; [|split].
    + apply getEventTicketById_missing. cbn. apply lookup_delete_eq.
    + apply getTicketSoldById_missing. cbn. apply lookup_delete_eq.
    + intros k Hk. unfold getEventTicketById. cbn.
      by rewrite lookup_delete_ne.
Qed.

Lemma deleteEventTicket_spec_witness :
  deleteEventTicket "e9" Sample.created
  = (Err "couldn't delete ticket with id=e9. Profile not found.", Sample.created)
  ∧ (deleteEventTicket "e1" Sample.created).1 = Ok Sample.gig
  ∧ getEventTicketById "e1" (deleteEventTicket "e1" Sample.created).2
    = Err "event ticket with id=e1 not found"
  ∧ getTicketSoldById "e1" (deleteEventTicket "e1" Sample.created).2
    = Err "ticket sold with id=e1 not found".
Proof.
  split.
  - apply (proj1 (deleteEventTicket_spec Sample.created "e9")).
    vm_compute. reflexivity.
  - pose proof (proj2 (deleteEventTicket_spec Sample.created "e1") _
                  created_gig) as (Hok & Hget & Hsold & _).
    exact (conj Hok (conj Hget Hsold)).
Defined.

(** X2. After [deleteEventTicket id], whether it succeeded or not, the id
    is gone: [getEventTicketById] and [getTicketSoldById] answer their
    not-found error for it, and a second [deleteEventTicket id] answers its
    error and changes nothing. *)
Theorem deleted_event_ticket_is_gone st id :
  let st' := (deleteEventTicket id st).2 in
  getEventTicketById id st'
  = Err ("event ticket with id=" +:+ id +:+ " not found") ∧
  getTicketSoldById id st'
  = Err ("ticket sold with id=" +:+ id +:+ " not found") ∧
  deleteEventTicket id st'
  = (Err ("couldn't delete ticket with id=" +:+ id +:+ ". Profile not found."),
     st').
Proof.
  intros st'.
  assert (Hgone : eventTicketStorage st' !! id = None).
  { unfold st', deleteEventTicket.
    destruct (eventTicketStorage st !! id); cbn; apply lookup_delete_eq. }
  split; [by apply getEventTicketById_missing|].
  split; [by apply getTicketSoldById_missing|].
  unfold deleteEventTicket at 1. rewrite Hgone. f_equal.
  unfold withEventTickets. rewrite delete_id by done. apply storage_eta.
Qed.

(** ** What a call leaves alone *)

(** X8. A call that does not answer [Result.Ok], because it answers
    [Result.Err] or because it throws, leaves the storage exactly as it
    was. *)
Theorem failed_call_changes_nothing c st :
  answersOk c st = false → perform c st = st.
Proof.
  destruct (keyWritten c) eqn:Hkey; [|intros _; by apply perform_throwing].
  destruct c as [payload uuid now|id| | | | |]; try discriminate;
    cbn [answersOk perform].
  unfold deleteEventTicket.
  destruct (eventTicketStorage st !! id) eqn:Hid; [discriminate|].
  intros _. cbn. unfold withEventTickets.
  rewrite delete_id by exact Hid. apply storage_eta.
Qed.

Lemma failed_call_changes_nothing_witness :
  perform (ReserveTicket "e1" "alice") Sample.created = Sample.created
  ∧ perform (DeleteEventTicket "e9") Sample.created = Sample.created.
Proof.
  split.
  - apply (failed_call_changes_nothing (ReserveTicket "e1" "alice")).
    vm_compute. reflexivity.
  - apply (failed_call_changes_nothing (DeleteEventTicket "e9")).
    vm_compute. reflexivity.
Defined.

(** X9. A call changes at most the object under the key it writes:
    [createEventTicket] the generated id, [deleteEventTicket] its id; every
    object under another key reads as before, through either handle.  The
    other five update functions change no object at all. *)
Theorem call_touches_named_objects c st k :
  keyWritten c ≠ Some k →
  getEventTicketById k (perform c st) = getEventTicketById k st ∧
  getTicketSoldById k (perform c st) = getTicketSoldById k st.
Proof.
  intros Hk.
  destruct (keyWritten c) eqn:Hkey; [|by rewrite perform_throwing].
  assert (Hsame : eventTicketStorage (perform c st) !! k
                  = eventTicketStorage st !! k).
  { destruct c as [payload uuid now|id| | | | |]; try discriminate;
      cbn [perform]; cbn in Hkey.
    - cbn. apply lookup_insert_ne. congruence.
    - unfold deleteEventTicket.
      destruct (eventTicketStorage st !! id); cbn;
        apply lookup_delete_ne; congruence. }
  unfold getEventTicketById, getTicketSoldById, ticketSoldStorage.
  by rewrite Hsame.
Qed.

Lemma call_touches_named_objects_witness :
  getEventTicketById "e1"
    (perform (CreateEventTicket (EventTicketPayload.mk "Play" "A play" 7)
                "e2" 8%N) Sample.created)
  = getEventTicketById "e1" Sample.created
  ∧ getTicketSoldById "e1"
      (perform (CreateEventTicket (EventTicketPayload.mk "Play" "A play" 7)
                  "e2" 8%N) Sample.created)
    = getTicketSoldById "e1" Sample.created.
Proof.
  apply (call_touches_named_objects
           (CreateEventTicket (EventTicketPayload.mk "Play" "A play" 7)
              "e2" 8%N) Sample.created "e1").
  discriminate.
Defined.

(** X10. A stored event ticket is never rewritten: across any call other
    than a [createEventTicket] that generates the ticket's own key, an
    event ticket stored under the same key before and after is the same
    object, with every field as before; in particular its
    [totalTicketSold] stays. *)
Theorem event_ticket_fields_kept c st k t t' :
  (∀ payload now, c ≠ CreateEventTicket payload k now) →
  eventTicketStorage st !! k = Some t →
  eventTicketStorage (perform c st) !! k = Some t' →
  t' = t.
Proof.
  intros Hnot Hk.
  destruct (keyWritten c) eqn:Hkey;
    [|rewrite perform_throwing by done; congruence].
  destruct c as [payload uuid now|id| | | | |]; try discriminate;
    cbn [perform].
  - cbn. rewrite lookup_insert_Some. intros [[<- _]|[_ Hk']]; [|congruence].
    by destruct (Hnot payload now).
  - unfold deleteEventTicket.
    destruct (eventTicketStorage st !! id); cbn;
      rewrite lookup_delete_Some; intros [_ Hk']; congruence.
Qed.

Lemma event_ticket_fields_kept_witness :
  Sample.gig = Sample.gig.
Proof.
  apply (event_ticket_fields_kept (BuyTicket "e1" "alice") Sample.created
           "e1" Sample.gig Sample.gig).
  - discriminate.
  - exact created_gig.
  - exact created_gig.
Defined.

(** ** The two handles *)


(** ** createEventTicket and deleteEventTicket together *)

(** X20. Deleting an event ticket right after creating it, under an id that
    was not stored before, answers the created event ticket and restores
    the storage as it was before the creation. *)
Theorem create_then_delete_restores st payload uuid now :
  eventTicketStorage st !! uuid = None →
  deleteEventTicket uuid (createEventTicket payload uuid now st).2
  = ((createEventTicket payload uuid now st).1, st).
Proof.
  intros Hnew. unfold deleteEventTicket. cbn.
  rewrite lookup_insert_eq. f_equal. unfold withEventTickets.
  rewrite delete_insert_eq, delete_id by done. apply storage_eta.
Qed.

Lemma create_then_delete_restores_witness :
  deleteEventTicket "e1" Sample.created = (Ok Sample.gig, emptyStorage).
Proof.
  apply (create_then_delete_restores emptyStorage Sample.payload "e1" 5%N).
  vm_compute. reflexivity.
Defined.

(** ** getAllEventTickets *)

(** X17. [getAllEventTickets] never fails and lists exactly the stored
    event tickets: an event ticket is in the list if and only if it is
    stored under some key, and the list has one entry per key. *)
Theorem getAllEventTickets_lists_stored st :
  ∃ tickets,
    getAllEventTickets st = Ok tickets ∧
    (∀ t, t ∈ tickets ↔ ∃ k, eventTicketStorage st !! k = Some t) ∧
    length tickets = size (eventTicketStorage st).
Proof.
  eexists. split; [reflexivity|]. split.
  - intros t. rewrite list_elem_of_fmap. split.
    + intros ([k t'] & -> & Hin). exists k. by apply elem_of_map_to_list.
    + intros [k Hk]. exists (k, t). split; [done|].
      by apply elem_of_map_to_list.
  - by rewrite length_fmap, length_map_to_list.
Qed.

(** X18. The list of [getAllEventTickets] grows by one entry with a
    [createEventTicket] whose generated id is not yet stored, and loses one
    entry with a [deleteEventTicket] of a stored id. *)
Theorem getAllEventTickets_after_create_delete st :
  (∀ payload uuid now,
     eventTicketStorage st !! uuid = None →
     ∃ tickets tickets',
       getAllEventTickets st = Ok tickets ∧
       getAllEventTickets (createEventTicket payload uuid now st).2
       = Ok tickets' ∧
       length tickets' = S (length tickets)) ∧
  (∀ id ticket,
     eventTicketStorage st !! id = Some ticket →
     ∃ tickets tickets',
       getAllEventTickets st = Ok tickets ∧
       getAllEventTickets (deleteEventTicket id st).2 = Ok tickets' ∧
       length tickets = S (length tickets')).
Proof.
  unfold getAllEventTickets. split.
  - intros payload uuid now Hnew. do 2 eexists.
    do 2 (split; [reflexivity|]).
    rewrite !length_fmap, !length_map_to_list. cbn.
    by apply map_size_insert_None.
  - intros id ticket Hid. do 2 eexists. do 2 (split; [reflexivity|]).
    unfold deleteEventTicket. rewrite Hid. cbn.
    rewrite !length_fmap, !length_map_to_list.
    rewrite (map_size_delete_Some id) by eauto.
    assert (size (eventTicketStorage st) ≠ 0%nat); [|lia].
    apply map_size_non_empty_iff. intros Hempty.
    by rewrite Hempty, lookup_empty in Hid.
Qed.

Lemma getAllEventTickets_after_create_delete_witness :
  (∃ tickets tickets',
     getAllEventTickets emptyStorage = Ok tickets ∧
     getAllEventTickets Sample.created = Ok tickets' ∧
     length tickets' = S (length tickets)) ∧
  (∃ tickets tickets',
     getAllEventTickets Sample.created = Ok tickets ∧
     getAllEventTickets (deleteEventTicket "e1" Sample.created).2
     = Ok tickets' ∧
     length tickets = S (length tickets')).
Proof.
  split.
  - apply (proj1 (getAllEventTickets_after_create_delete emptyStorage)
             Sample.payload "e1" 5%N).
    vm_compute. reflexivity.
  - apply (proj2 (getAllEventTickets_after_create_delete Sample.created)
             "e1" Sample.gig).
    exact created_gig.
Defined.
